(** * Regensburg transport sensor: a model of [sensor.py] and its properties

    The development embeds
    [homeassistant/components/regensburg_transport/sensor.py]: the
    [TransportSensor] entity, its constructor, its presentation properties,
    [fetch_departures], [async_update] and [next_departure].

    Python values, the exception hierarchy of [requests], decoded JSON and the
    logger are modelled just far enough to run the sensor's code: effects are
    an exception-and-trace monad whose trace records every outbound GET and
    every log call in program order. *)

From Stdlib Require Import ZArith Sorted Permutation.
From stdpp Require Import base strings list gmap pretty.

Local Open Scope string_scope.
Local Open Scope list_scope.
Local Open Scope Z_scope.

#[local] Set Warnings "-register-all".

(** ** Python values and exceptions *)

Module Py.

(** The values a configuration entry can hold. *)
Inductive value : Type :=
| VNone
| VBool (b : bool)
| VInt (z : Z)
| VStr (s : string).

#[global] Instance value_eq_dec : EqDecision value.
Proof. solve_decision. Defined.

(** Truth value testing: [None], [False], [0] and [''] are false. *)
Definition truthy (v : value) : bool :=
  match v with
  | VNone => false
  | VBool b => b
  | VInt z => negb (z =? 0)
  | VStr s => negb (String.eqb s "")
  end.

(** [a or b] *)
Definition or (a b : value) : value := if truthy a then a else b.

(** [str(v)], as used by [%s] and by f-strings. *)
Definition str (v : value) : string :=
  match v with
  | VNone => "None"
  | VBool true => "True"
  | VBool false => "False"
  | VInt z => pretty z
  | VStr s => s
  end.

(** Exception classes: the part of the [requests.exceptions] hierarchy and
    of the built-in hierarchy that the sensor's code can meet. *)
Inductive exn_class : Type :=
| Exception
| OSError
| ValueError
| TypeError
| AttributeError
| LookupError
| KeyError
| IndexError
| RequestException
| HTTPError
| ConnectionError
| SSLError
| Timeout
| ConnectTimeout
| ReadTimeout
| TooManyRedirects
| InvalidJSONError
| JSONDecodeError.

#[global] Instance exn_class_eq_dec : EqDecision exn_class.
Proof. solve_decision. Defined.

(** Direct base classes ([cls.__bases__]). *)
Definition bases (c : exn_class) : list exn_class :=
  match c with
  | Exception => []
  | OSError | ValueError | TypeError | AttributeError | LookupError => [Exception]
  | KeyError | IndexError => [LookupError]
  | RequestException => [OSError]
  | HTTPError | ConnectionError | Timeout
  | TooManyRedirects | InvalidJSONError => [RequestException]
  | SSLError => [ConnectionError]
  | ConnectTimeout => [ConnectionError; Timeout]
  | ReadTimeout => [Timeout]
  | JSONDecodeError => [InvalidJSONError; ValueError]
  end.

Fixpoint issubclass_upto (depth : nat) (c d : exn_class) : bool :=
  bool_decide (c = d) ||
  match depth with
  | O => false
  | S depth' => existsb (fun b => issubclass_upto depth' b d) (bases c)
  end.

(** [issubclass(c, d)]; the hierarchy above is five levels deep. *)
Definition issubclass : exn_class → exn_class → bool := issubclass_upto 5.

(** A raised exception: its class and [str(ex)]. *)
Record exn : Type := Exn { exn_cls : exn_class; exn_msg : string }.

#[global] Instance exn_eq_dec : EqDecision exn.
Proof. solve_decision. Defined.

End Py.

(** ** Decoded JSON *)

Module Json.

(** What [json.loads] produces. An object keeps its items in insertion
    order, as a Python [dict] does. *)
Inductive t : Type :=
| JNull
| JBool (b : bool)
| JInt (z : Z)
| JFloat (literal : string)
| JString (s : string)
| JArray (items : list t)
| JObject (fields : list (string * t)).

Fixpoint assoc (k : string) (fields : list (string * t)) : option t :=
  match fields with
  | [] => None
  | (k', v) :: rest => if String.eqb k k' then Some v else assoc k rest
  end.

End Json.

(** ** Effects: exceptions, outbound requests and log records *)

Inductive outcome (A : Type) : Type :=
| Returned (a : A)
| Raised (ex : Py.exn).
Arguments Returned {A} a.
Arguments Raised {A} ex.

Inductive log_level : Type := DEBUG | INFO | WARNING | ERROR.

#[global] Instance log_level_eq_dec : EqDecision log_level.
Proof. solve_decision. Defined.

(** The arguments of [requests.get]. *)
Record Request : Type := {
  url : string;
  params : list (string * string);
  timeout : Z
}.

(** The part of [requests.Response] that the sensor reads. [json_body] is
    [None] when the body is not valid JSON, and [json_error] is then the
    decoder's message. *)
Record Response : Type := {
  status_code : Z;
  reason : string;
  response_url : string;
  text : string;
  json_body : option Json.t;
  json_error : string
}.

Inductive event : Type :=
| EvGet (req : Request)
| EvLog (level : log_level) (format : string) (args : list string).

(** A computation yields the events it performed, in order, and either a
    value or the exception that escaped it. *)
Definition Eff (A : Type) : Type := list event * outcome A.

#[global] Instance Eff_ret : MRet Eff := fun A a => ([], Returned a).

#[global] Instance Eff_bind : MBind Eff := fun A B k m =>
  match m with
  | (tr, Returned a) => let '(tr', r) := k a in (tr ++ tr', r)
  | (tr, Raised ex) => (tr, Raised ex)
  end.

Definition raise {A : Type} (ex : Py.exn) : Eff A := ([], Raised ex).

Definition emit (ev : event) : Eff unit := ([ev], Returned tt).

(** An [except cls as ex:] clause. *)
Definition handler (A : Type) : Type := Py.exn_class * (Py.exn → Eff A).

Fixpoint dispatch {A : Type} (ex : Py.exn) (hs : list (handler A)) : Eff A :=
  match hs with
  | [] => raise ex
  | (cls, h) :: hs' =>
      if Py.issubclass (Py.exn_cls ex) cls then h ex else dispatch ex hs'
  end.

(** [try: body except ...]: the first clause whose class the exception is an
    instance of runs; an exception that matches none goes on. *)
Definition try_except {A : Type} (body : Eff A) (hs : list (handler A)) : Eff A :=
  match body with
  | (tr, Returned a) => (tr, Returned a)
  | (tr, Raised ex) => let '(tr', r) := dispatch ex hs in (tr ++ tr', r)
  end.

Definition trace_of {A : Type} (m : Eff A) : list event := m.1.
Definition result_of {A : Type} (m : Eff A) : outcome A := m.2.

(** The requests issued and the log records written by a trace. *)
Definition requests_of (tr : list event) : list Request :=
  omap (fun ev => match ev with EvGet r => Some r | _ => None end) tr.

Definition logs_of (tr : list event) : list (log_level * string * list string) :=
  omap (fun ev => match ev with EvLog l f a => Some (l, f, a) | _ => None end) tr.

Definition logs_at (lvl : log_level) (tr : list event)
  : list (log_level * string * list string) :=
  filter (fun e => e.1.1 = lvl) (logs_of tr).

(** Early exit from a function body: [return r] inside a [try] clause, or
    falling through to the statements after it. *)
Inductive flow (R A : Type) : Type :=
| Return (r : R)
| Continue (a : A).
Arguments Return {R A} r.
Arguments Continue {R A} a.

(** [logging.Logger] methods of the module's [_LOGGER]; [%s] arguments are
    recorded as formatted. *)
Module _LOGGER.
Definition debug (format : string) (args : list string) : Eff unit :=
  emit (EvLog DEBUG format args).
Definition warning (format : string) (args : list string) : Eff unit :=
  emit (EvLog WARNING format args).
Definition error (format : string) (args : list string) : Eff unit :=
  emit (EvLog ERROR format args).
End _LOGGER.

(** ** Library behaviour used by the sensor *)

(** [Response.raise_for_status]: 4xx and 5xx raise [HTTPError]. *)
Definition raise_for_status (response : Response) : Eff unit :=
  let code := status_code response in
  if (400 <=? code) && (code <? 500) then
    raise (Py.Exn Py.HTTPError
             (pretty code +:+ " Client Error: " +:+ reason response
                +:+ " for url: " +:+ response_url response))
  else if (500 <=? code) && (code <? 600) then
    raise (Py.Exn Py.HTTPError
             (pretty code +:+ " Server Error: " +:+ reason response
                +:+ " for url: " +:+ response_url response))
  else mret tt.

(** [Response.json]: the decoded body, or [requests.exceptions.JSONDecodeError]. *)
Definition Response_json (response : Response) : Eff Json.t :=
  match json_body response with
  | Some body => mret body
  | None => raise (Py.Exn Py.JSONDecodeError (json_error response))
  end.

(** [obj.get(key)]: a [dict] answers with the value or [None]; no other
    decoded JSON value has a [get] attribute. *)
Definition py_get (obj : Json.t) (key : string) : Eff Json.t :=
  match obj with
  | Json.JObject fields => mret (default Json.JNull (Json.assoc key fields))
  | Json.JNull =>
      raise (Py.Exn Py.AttributeError "'NoneType' object has no attribute 'get'")
  | Json.JBool _ =>
      raise (Py.Exn Py.AttributeError "'bool' object has no attribute 'get'")
  | Json.JInt _ =>
      raise (Py.Exn Py.AttributeError "'int' object has no attribute 'get'")
  | Json.JFloat _ =>
      raise (Py.Exn Py.AttributeError "'float' object has no attribute 'get'")
  | Json.JString _ =>
      raise (Py.Exn Py.AttributeError "'str' object has no attribute 'get'")
  | Json.JArray _ =>
      raise (Py.Exn Py.AttributeError "'list' object has no attribute 'get'")
  end.

Fixpoint characters (s : string) : list Json.t :=
  match s with
  | EmptyString => []
  | String c rest => Json.JString (String c EmptyString) :: characters rest
  end.

(** What [for departure in obj] walks over: the items of a list, the keys of
    a dict, the characters of a string; anything else is not iterable. *)
Definition py_iter (obj : Json.t) : Eff (list Json.t) :=
  match obj with
  | Json.JArray items => mret items
  | Json.JObject fields => mret (map (fun kv => Json.JString kv.1) fields)
  | Json.JString s => mret (characters s)
  | Json.JNull => raise (Py.Exn Py.TypeError "'NoneType' object is not iterable")
  | Json.JBool _ => raise (Py.Exn Py.TypeError "'bool' object is not iterable")
  | Json.JInt _ => raise (Py.Exn Py.TypeError "'int' object is not iterable")
  | Json.JFloat _ => raise (Py.Exn Py.TypeError "'float' object is not iterable")
  end.

(** The built-in [sorted(xs, key=...)]: ascending, stable, and decided by [<]
    on the keys alone. Its result is fixed by that contract, whatever the
    algorithm; here each element, from the last to the first, is put before
    the first element whose key is not smaller. *)
Section Sorted.
Context {A : Type} (key : A → Z).

Fixpoint insert_sorted (x : A) (xs : list A) : list A :=
  match xs with
  | [] => [x]
  | y :: ys => if key y <? key x then y :: insert_sorted x ys else x :: y :: ys
  end.

Fixpoint sorted (xs : list A) : list A :=
  match xs with
  | [] => []
  | x :: xs' => insert_sorted x (sorted xs')
  end.

(** The order that "ascending by key" refers to. *)
Definition key_le (a b : A) : Prop := key a <= key b.
End Sorted.

(** ** The value object of a departure *)

Module StopEvent.

(** Modelled from the spec: the [StopEvent] class of [stopEvent.py], which
    is not part of the sources at hand. One scheduled departure; [planned]
    is always present and totally ordered, [estimated] may be absent. *)
Record t : Type := {
  planned : Z;
  estimated : option Z;
  transportation_line : string;
  direction : string;
  icon : string
}.

#[global] Instance eq_dec : EqDecision t.
Proof. solve_decision. Defined.

End StopEvent.

(** ** The sensor *)

(** Where [stop_events] can point: [None] or a list. *)
Inductive stop_events_value : Type :=
| SE_None
| SE_List (events : list StopEvent.t).

Definition se_truthy (v : stop_events_value) : bool :=
  match v with
  | SE_None => false
  | SE_List [] => false
  | SE_List (_ :: _) => true
  end.

(** [isinstance(v, list)] *)
Definition se_isinstance_list (v : stop_events_value) : bool :=
  match v with
  | SE_None => false
  | SE_List _ => true
  end.

(** [v[0]] *)
Definition se_getitem0 (v : stop_events_value) : Eff StopEvent.t :=
  match v with
  | SE_None => raise (Py.Exn Py.TypeError "'NoneType' object is not subscriptable")
  | SE_List [] => raise (Py.Exn Py.IndexError "list index out of range")
  | SE_List (e :: _) => mret e
  end.

(** [v or []] *)
Definition se_or_empty (v : stop_events_value) : list StopEvent.t :=
  match v with
  | SE_None => []
  | SE_List events => if se_truthy v then events else []
  end.

Section TransportSensor.

(** The host's [HomeAssistant] object and the mapping type that
    [StopEvent.to_dict] produces are opaque to the sensor. *)
Context {HomeAssistant Mapping : Type}.

(** Names from [const.py], which is not part of the sources at hand. *)
Variables CONF_DEPARTURES_NAME CONF_DEPARTURES_STOP_ID
          CONF_DEPARTURES_WALKING_TIME DEFAULT_ICON : string.

(** [StopEvent.from_dict] and [StopEvent.to_dict] of [stopEvent.py]; the
    former may raise on a record it cannot read. *)
Variable from_dict : Json.t → outcome StopEvent.t.
Variable to_dict : StopEvent.t → Mapping.

(** What the network and the transit API answer to a GET: a response, or
    the exception that [requests.get] raises. *)
Variable remote : Request → outcome Response.

(** [requests.get(url=..., params=..., timeout=...)] *)
Definition requests_get (req : Request) : Eff Response :=
  ([EvGet req], remote req).

Record TransportSensor : Type := {
  hass : HomeAssistant;
  config : gmap string Py.value;
  stop_id : Py.value;
  sensor_name : Py.value;
  direction : Py.value;
  walking_time : Py.value;
  stop_events : stop_events_value
}.

(** [config[key]] *)
Definition config_getitem (cfg : gmap string Py.value) (key : string) : Eff Py.value :=
  match cfg !! key with
  | Some v => mret v
  | None => raise (Py.Exn Py.KeyError ("'" +:+ key +:+ "'"))
  end.

(** [config.get(key)] *)
Definition config_get (cfg : gmap string Py.value) (key : string) : Py.value :=
  default Py.VNone (cfg !! key).

(** [TransportSensor(hass, config)]. The class attribute
    [stop_events = []] is what a new instance reads until [async_update]
    assigns its own. *)
Definition __init__ (h : HomeAssistant) (cfg : gmap string Py.value)
  : Eff TransportSensor :=
  sid ← config_getitem cfg CONF_DEPARTURES_STOP_ID;
  mret {| hass := h;
          config := cfg;
          stop_id := sid;
          sensor_name := config_get cfg CONF_DEPARTURES_NAME;
          direction := Py.VStr "Test";
          walking_time :=
            Py.or (config_get cfg CONF_DEPARTURES_WALKING_TIME) (Py.VInt 1);
          stop_events := SE_List [] |}.

Definition name (self : TransportSensor) : Py.value :=
  Py.or (sensor_name self) (Py.VStr ("Stop ID: " +:+ Py.str (stop_id self))).

Definition unique_id (self : TransportSensor) : string :=
  "stop_" +:+ Py.str (stop_id self) +:+ "_departures".

Definition next_departure (self : TransportSensor) : Eff (option StopEvent.t) :=
  if se_truthy (stop_events self) && se_isinstance_list (stop_events self)
  then e ← se_getitem0 (stop_events self); mret (Some e)
  else mret None.

Definition icon (self : TransportSensor) : Eff string :=
  next_departure ← next_departure self;
  match next_departure with
  | Some e => mret (StopEvent.icon e)
  | None => mret DEFAULT_ICON
  end.

Definition extra_state_attributes (self : TransportSensor)
  : list (string * list Mapping) :=
  [("departures", map to_dict (se_or_empty (stop_events self)))].

Definition fetch_departures (self : TransportSensor) : Eff (list StopEvent.t) :=
  attempt ← try_except
    (response ← requests_get
       {| url := "https://efa.rvv.de/efa/XML_DM_REQUEST";
          params := [("mode", "direct");
                     ("outputFormat", "rapidJSON");
                     ("type_dm", "any");
                     ("useRealtime", "1");
                     ("name_dm", "de:09362:12009")];
          timeout := 30 |};
     raise_for_status response;;
     mret (Continue response))
    [(Py.HTTPError, fun ex =>
        _LOGGER.warning "API error: %s" [Py.exn_msg ex];;
        mret (Return []));
     (Py.Timeout, fun ex =>
        _LOGGER.warning "API timeout: %s" [Py.exn_msg ex];;
        mret (Return []))];
  match attempt with
  | Return r => mret r
  | Continue response =>
      _LOGGER.debug "OK: departures for %s: %s"
                    [Py.str (stop_id self); text response];;
      parsed ← try_except
        (body ← Response_json response;
         stopEvents ← py_get body "stopEvents";
         mret (Continue stopEvents))
        [(Py.InvalidJSONError, fun ex =>
            _LOGGER.error "API invalid JSON: %s" [Py.exn_msg ex];;
            mret (Return []))];
      match parsed with
      | Return r => mret r
      | Continue stopEvents =>
          departures ← py_iter stopEvents;
          unsorted ← mapM (fun departure => ([], from_dict departure) : Eff _)
                          departures;
          mret (sorted StopEvent.planned unsorted)
      end
  end.

Definition async_update (self : TransportSensor) : Eff TransportSensor :=
  fetched ← fetch_departures self;
  mret {| hass := hass self;
          config := config self;
          stop_id := stop_id self;
          sensor_name := sensor_name self;
          direction := direction self;
          walking_time := walking_time self;
          stop_events := SE_List fetched |}.

End TransportSensor.

(** The request that [fetch_departures] builds, named for the statements
    below ([fetch_departures_requests] shows it is the one issued). *)
Definition departures_request : Request :=
  {| url := "https://efa.rvv.de/efa/XML_DM_REQUEST";
     params := [("mode", "direct");
                ("outputFormat", "rapidJSON");
                ("type_dm", "any");
                ("useRealtime", "1");
                ("name_dm", "de:09362:12009")];
     timeout := 30 |}.

(** [params[key]] of a request. *)
Fixpoint param (key : string) (ps : list (string * string)) : option string :=
  match ps with
  | [] => None
  | (k, v) :: rest => if String.eqb key k then Some v else param key rest
  end.

(** The status codes that [raise_for_status] lets through. *)
Definition status_ok (response : Response) : Prop :=
  ¬ (400 <= status_code response < 600).

(** "Sorted non-decreasing by [planned]". *)
Definition planned_le : StopEvent.t → StopEvent.t → Prop :=
  key_le StopEvent.planned.

(** ** Concrete surroundings

    One choice for everything the sensor takes from outside, to run the model
    on explicit inputs. The general statements below hold for every choice. *)

Module Example.

Definition CONF_DEPARTURES_NAME : string := "name".
Definition CONF_DEPARTURES_STOP_ID : string := "stop_id".
Definition CONF_DEPARTURES_WALKING_TIME : string := "walking_time".
Definition DEFAULT_ICON : string := "mdi:clock".

Definition text_field (key : string) (fields : list (string * Json.t)) : string :=
  match Json.assoc key fields with
  | Some (Json.JString s) => s
  | _ => ""
  end.

(** A parser that reads the integer field [planned] and raises without it. *)
Definition from_dict (raw : Json.t) : outcome StopEvent.t :=
  match raw with
  | Json.JObject fields =>
      match Json.assoc "planned" fields with
      | Some (Json.JInt p) =>
          Returned {| StopEvent.planned := p;
                      StopEvent.estimated :=
                        match Json.assoc "estimated" fields with
                        | Some (Json.JInt e) => Some e
                        | _ => None
                        end;
                      StopEvent.transportation_line := text_field "line" fields;
                      StopEvent.direction := text_field "direction" fields;
                      StopEvent.icon := "mdi:bus" |}
      | _ => Raised (Py.Exn Py.KeyError "'planned'")
      end
  | _ => Raised (Py.Exn Py.TypeError "string indices must be integers")
  end.

Definition to_dict (e : StopEvent.t) : list (string * Py.value) :=
  [("planned", Py.VInt (StopEvent.planned e));
   ("line", Py.VStr (StopEvent.transportation_line e));
   ("direction", Py.VStr (StopEvent.direction e))].

Definition answer (code : Z) (why : string) (body : option Json.t) : Response :=
  {| status_code := code;
     reason := why;
     response_url := "https://efa.rvv.de/efa/XML_DM_REQUEST";
     text := "";
     json_body := body;
     json_error := "Expecting value: line 1 column 1 (char 0)" |}.

(** The API answers 200 with the given decoded body. *)
Definition remote_ok (body : Json.t) : Request → outcome Response :=
  fun _ => Returned (answer 200 "OK" (Some body)).

(** The API answers 200 with a body that is not JSON. *)
Definition remote_not_json : Request → outcome Response :=
  fun _ => Returned (answer 200 "OK" None).

Definition remote_500 : Request → outcome Response :=
  fun _ => Returned (answer 500 "Internal Server Error" None).

Definition remote_timeout : Request → outcome Response :=
  fun _ => Raised (Py.Exn Py.ReadTimeout "Read timed out. (read timeout=30)").

Definition remote_refused : Request → outcome Response :=
  fun _ => Raised (Py.Exn Py.ConnectionError "Connection refused").

Definition record (p : Z) (line : string) : Json.t :=
  Json.JObject [("planned", Json.JInt p); ("line", Json.JString line)].

Definition event (p : Z) (line : string) : StopEvent.t :=
  {| StopEvent.planned := p;
     StopEvent.estimated := None;
     StopEvent.transportation_line := line;
     StopEvent.direction := "";
     StopEvent.icon := "mdi:bus" |}.

(** Three departures, out of order, two of them at the same minute. *)
Definition payload : Json.t :=
  Json.JObject
    [("version", Json.JString "10.4");
     ("stopEvents",
      Json.JArray [record 1005 "6"; record 1002 "1"; record 1005 "11"])].

Definition cfg : gmap string Py.value :=
  {[ "name" := Py.VStr "Hauptbahnhof"; "stop_id" := Py.VInt 4014080 ]}.

(** The sensor that [TransportSensor(hass, cfg)] constructs, before any update. *)
Definition fresh : @TransportSensor unit :=
  {| hass := tt;
     config := cfg;
     stop_id := Py.VInt 4014080;
     sensor_name := Py.VStr "Hauptbahnhof";
     direction := Py.VStr "Test";
     walking_time := Py.VInt 1;
     stop_events := SE_List [] |}.

End Example.

(** ** Platform setup *)

(** What a key of the platform configuration can hold: a plain value, or
    the list of departure entries. *)
Inductive config_value : Type :=
| CScalar (v : Py.value)
| CEntries (entries : list (gmap string Py.value)).

Section Platform.

Context {HomeAssistant : Type}.

Variables CONF_DEPARTURES CONF_DEPARTURES_NAME CONF_DEPARTURES_STOP_ID
          CONF_DEPARTURES_WALKING_TIME : string.

(** One call [add_entities(new_entities, update_before_add)]. *)
Definition add_call : Type := list (@TransportSensor HomeAssistant) * bool.

(** The loop body, entry by entry: construct the sensor, hand it to
    [add_entities] with [update_before_add = True]. An exception from the
    constructor ends the loop; the calls made before it stay made. *)
Fixpoint add_each (hass : HomeAssistant) (entries : list (gmap string Py.value))
  : list add_call * outcome unit :=
  match entries with
  | [] => ([], Returned tt)
  | departure :: rest =>
      match result_of (__init__ CONF_DEPARTURES_NAME CONF_DEPARTURES_STOP_ID
                                CONF_DEPARTURES_WALKING_TIME hass departure) with
      | Returned sensor =>
          let '(calls, r) := add_each hass rest in (([sensor], true) :: calls, r)
      | Raised ex => ([], Raised ex)
      end
  end.

(** [for departure in v] when [v] is not a list of entries: [None], a
    boolean and a number are not iterable; a string yields its characters,
    and the constructor cannot subscript the first of them by a key. *)
Definition add_each_scalar (v : Py.value) : list add_call * outcome unit :=
  match v with
  | Py.VNone => ([], Raised (Py.Exn Py.TypeError "'NoneType' object is not iterable"))
  | Py.VBool _ => ([], Raised (Py.Exn Py.TypeError "'bool' object is not iterable"))
  | Py.VInt _ => ([], Raised (Py.Exn Py.TypeError "'int' object is not iterable"))
  | Py.VStr EmptyString => ([], Returned tt)
  | Py.VStr (String _ _) =>
      ([], Raised (Py.Exn Py.TypeError "string indices must be integers, not 'str'"))
  end.

(** [async_setup_platform(hass, config, add_entities)], with the calls it
    makes to [add_entities] in order. *)
Definition async_setup_platform (hass : HomeAssistant)
           (config : gmap string config_value) : list add_call * outcome unit :=
  match config !! CONF_DEPARTURES with
  | Some (CEntries entries) => add_each hass entries
  | Some (CScalar v) => add_each_scalar v
  | None => ([], Returned tt)
  end.

End Platform.

(** ** The shapes a fetch can take

    [fetch_shape sid logs r]: the log events and the result of one fetch by a
    sensor whose stop id prints as [sid]. *)
Inductive fetch_shape (sid : string)
  : list event → outcome (list StopEvent.t) → Prop :=
| shape_absorbed (format : string) (args : list string) :
    fetch_shape sid [EvLog WARNING format args] (Returned [])
| shape_request_escaped (ex : Py.exn) :
    fetch_shape sid [] (Raised ex)
| shape_not_json (body : string) (args : list string) :
    fetch_shape sid
      [EvLog DEBUG "OK: departures for %s: %s" [sid; body];
       EvLog ERROR "API invalid JSON: %s" args]
      (Returned [])
| shape_parse_escaped (body : string) (ex : Py.exn) :
    fetch_shape sid [EvLog DEBUG "OK: departures for %s: %s" [sid; body]] (Raised ex)
| shape_departures (body : string) (events : list StopEvent.t) :
    fetch_shape sid [EvLog DEBUG "OK: departures for %s: %s" [sid; body]]
                (Returned (sorted StopEvent.planned events)).

(** ** More concrete surroundings *)

Module Showcase.

(** The example sensor after an update against the example payload. *)
Definition updated : @TransportSensor unit :=
  {| hass := tt;
     config := Example.cfg;
     stop_id := Py.VInt 4014080;
     sensor_name := Py.VStr "Hauptbahnhof";
     direction := Py.VStr "Test";
     walking_time := Py.VInt 1;
     stop_events :=
       SE_List [Example.event 1002 "1"; Example.event 1005 "6";
                Example.event 1005 "11"] |}.

(** A sensor for the neighbouring stop, configured without a name. *)
Definition unnamed : @TransportSensor unit :=
  {| hass := tt;
     config := {[ "stop_id" := Py.VInt 4014081 ]};
     stop_id := Py.VInt 4014081;
     sensor_name := Py.VNone;
     direction := Py.VStr "Test";
     walking_time := Py.VInt 1;
     stop_events := SE_List [] |}.

(** A payload whose second record has no [planned] field. *)
Definition broken_payload : Json.t :=
  Json.JObject
    [("stopEvents",
      Json.JArray [Example.record 1005 "6";
                   Json.JObject [("line", Json.JString "1")];
                   Example.record 1001 "11"])].

(** A payload that is already in order. *)
Definition ordered_payload : Json.t :=
  Json.JObject
    [("stopEvents", Json.JArray [Example.record 1002 "1"; Example.record 1005 "6"])].

(** A platform configuration with two departure entries. *)
Definition platform_cfg : gmap string config_value :=
  {[ "platform" := CScalar (Py.VStr "regensburg_transport");
     "departures" := CEntries [Example.cfg; {[ "stop_id" := Py.VInt 4014081 ]}] ]}.

(** The same, with an entry in the middle that has no stop id. *)
Definition platform_cfg_gap : gmap string config_value :=
  {[ "departures" :=
       CEntries [Example.cfg;
                 {[ "name" := Py.VStr "Arnulfsplatz" ]};
                 {[ "stop_id" := Py.VInt 4014081 ]}] ]}.

End Showcase.

(** * Properties *)

(** ** The monad and the exception hierarchy *)

(** A failing computation skips what follows it. *)
Lemma bind_raised {A B : Type} (tr : list event) (ex : Py.exn) (k : A → Eff B) :
  ((tr, Raised ex) : Eff A) ≫= k = (tr, Raised ex).
Proof. reflexivity. Qed.

(** Every class is an instance of itself, a connect timeout is a timeout,
    and nothing that is a timeout is an [HTTPError]. *)
Lemma issubclass_refl (c : Py.exn_class) : Py.issubclass c c = true.
Proof. by destruct c. Qed.

Lemma connect_timeout_is_timeout :
  Py.issubclass Py.ConnectTimeout Py.Timeout = true ∧
  Py.issubclass Py.ConnectTimeout Py.ConnectionError = true.
Proof. by split. Qed.

Lemma timeout_not_http_error (c : Py.exn_class) :
  Py.issubclass c Py.Timeout = true → Py.issubclass c Py.HTTPError = false.
Proof. by destruct c. Qed.

(** ** [sorted] *)

Section SortedFacts.
Context {A : Type} (key : A → Z).

Lemma insert_sorted_Permutation (x : A) (xs : list A) :
  insert_sorted key x xs ≡ₚ x :: xs.
Proof.
  induction xs as [|y ys IH]; simpl; [done|].
  destruct (key y <? key x); [|done].
  rewrite IH. apply perm_swap.
Qed.

Lemma sorted_Permutation (xs : list A) : sorted key xs ≡ₚ xs.
Proof.
  induction xs as [|x xs IH]; simpl; [done|].
  by rewrite insert_sorted_Permutation, IH.
Qed.

Lemma sorted_length (xs : list A) : length (sorted key xs) = length xs.
Proof. apply Permutation_length, sorted_Permutation. Qed.

Lemma insert_sorted_StronglySorted (x : A) (xs : list A) :
  StronglySorted (key_le key) xs → StronglySorted (key_le key) (insert_sorted key x xs).
Proof.
  induction 1 as [|y ys Hys IH Hy]; simpl.
  - repeat constructor.
  - destruct (Z.ltb_spec (key y) (key x)) as [Hlt|Hge].
    + constructor; [done|].
      rewrite insert_sorted_Permutation. constructor; [|done].
      unfold key_le. lia.
    + constructor; [by constructor|].
      constructor; [done|].
      eapply Forall_impl; [exact Hy|]. unfold key_le. intros z ?. lia.
Qed.

Lemma sorted_StronglySorted (xs : list A) : StronglySorted (key_le key) (sorted key xs).
Proof.
  induction xs as [|x xs IH]; simpl; [constructor|].
  by apply insert_sorted_StronglySorted.
Qed.

(** Stability: the elements of any one key come out in the order they went in. *)
Lemma insert_sorted_filter (k : Z) (x : A) (xs : list A) :
  filter (fun a => key a = k) (insert_sorted key x xs)
  = filter (fun a => key a = k) (x :: xs).
Proof.
  induction xs as [|y ys IH]; simpl; [done|].
  destruct (Z.ltb_spec (key y) (key x)) as [Hlt|Hge]; [|done].
  rewrite filter_cons, IH, !filter_cons.
  repeat case_decide; try done. lia.
Qed.

Lemma sorted_filter (k : Z) (xs : list A) :
  filter (fun a => key a = k) (sorted key xs) = filter (fun a => key a = k) xs.
Proof.
  induction xs as [|x xs IH]; simpl; [done|].
  by rewrite insert_sorted_filter, !filter_cons, IH.
Qed.

(** The contract fixes the result: any list that is ascending by key and
    keeps, key by key, the order of [xs] is [sorted key xs]. *)
Lemma stable_ascending_unique (xs ys : list A) :
  StronglySorted (key_le key) xs →
  StronglySorted (key_le key) ys →
  (∀ k, filter (fun a => key a = k) xs = filter (fun a => key a = k) ys) →
  xs = ys.
Proof.
  intros Hxs. revert ys.
  induction Hxs as [|x xs Hxs IH Hx]; intros ys Hys Hf.
  - destruct ys as [|y ys]; [done|].
    specialize (Hf (key y)). rewrite filter_cons_True in Hf by done. done.
  - destruct ys as [|y ys].
    { specialize (Hf (key x)). rewrite filter_cons_True in Hf by done. done. }
    apply StronglySorted_inv in Hys as [Hys Hy].
    assert (key x = key y) as Hk.
    { assert (x ∈ filter (fun a => key a = key x) (y :: ys)) as Hin1.
      { rewrite <- Hf, filter_cons_True by done. left. }
      assert (y ∈ filter (fun a => key a = key y) (x :: xs)) as Hin2.
      { rewrite Hf, filter_cons_True by done. left. }
      apply list_elem_of_filter in Hin1 as [_ Hin1], Hin2 as [_ Hin2].
      apply elem_of_cons in Hin1 as [->|Hin1]; [done|].
      apply elem_of_cons in Hin2 as [->|Hin2]; [done|].
      rewrite Forall_forall in Hx, Hy.
      apply Hy in Hin1. apply Hx in Hin2. unfold key_le in *. lia. }
    assert (x = y) as ->.
    { specialize (Hf (key x)).
      rewrite filter_cons_True in Hf by done.
      rewrite filter_cons_True in Hf by done. congruence. }
    f_equal. apply IH; [done|]. intros k. specialize (Hf k).
    rewrite !filter_cons in Hf. case_decide; congruence.
Qed.

Lemma sorted_unique (xs ys : list A) :
  StronglySorted (key_le key) ys →
  (∀ k, filter (fun a => key a = k) ys = filter (fun a => key a = k) xs) →
  ys = sorted key xs.
Proof.
  intros Hys Hf. apply stable_ascending_unique; [done|apply sorted_StronglySorted|].
  intros k. by rewrite Hf, sorted_filter.
Qed.

End SortedFacts.

(** ** [fetch_departures], outcome by outcome *)

Section FetchFacts.
Context {HomeAssistant : Type}.
Variable from_dict : Json.t → outcome StopEvent.t.
Variable remote : Request → outcome Response.
Implicit Type self : @TransportSensor HomeAssistant.

Lemma raise_for_status_ok (response : Response) :
  status_ok response → raise_for_status response = ([], Returned tt).
Proof.
  unfold status_ok, raise_for_status. intros Hok.
  destruct (Z.leb_spec 400 (status_code response)),
           (Z.ltb_spec (status_code response) 500),
           (Z.leb_spec 500 (status_code response)),
           (Z.ltb_spec (status_code response) 600); simpl; done || lia.
Qed.

Lemma raise_for_status_error (response : Response) :
  400 <= status_code response < 600 →
  ∃ msg, raise_for_status response = ([], Raised (Py.Exn Py.HTTPError msg)).
Proof.
  unfold raise_for_status. intros Hcode.
  destruct (Z.leb_spec 400 (status_code response)),
           (Z.ltb_spec (status_code response) 500),
           (Z.leb_spec 500 (status_code response)),
           (Z.ltb_spec (status_code response) 600); simpl; eauto; lia.
Qed.

(** The list comprehension performs no event, and returns the parsed
    records in order when every record parses. *)
Lemma comprehension_trace (departures : list Json.t) :
  (mapM (fun departure => ([], from_dict departure) : Eff _) departures).1 = [].
Proof.
  induction departures as [|d ds IH]; simpl; [done|].
  destruct (from_dict d) as [e|ex]; simpl; [|done].
  destruct (mapM _ ds) as [tr [es|ex]]; simpl in *; by subst.
Qed.

Lemma comprehension_Returned (departures : list Json.t) (events : list StopEvent.t) :
  Forall2 (fun d e => from_dict d = Returned e) departures events →
  mapM (fun departure => ([], from_dict departure) : Eff _) departures
  = ([], Returned events).
Proof.
  induction 1 as [|d e ds es Hd _ IH]; simpl; [done|].
  rewrite Hd. simpl. by rewrite IH.
Qed.

Lemma fetch_departures_timeout self (ex : Py.exn) :
  remote departures_request = Raised ex →
  Py.issubclass (Py.exn_cls ex) Py.Timeout = true →
  fetch_departures from_dict remote self
  = ([EvGet departures_request; EvLog WARNING "API timeout: %s" [Py.exn_msg ex]],
     Returned []).
Proof.
  intros Hget Hcls. unfold fetch_departures, requests_get.
  fold departures_request. rewrite Hget. simpl.
  by rewrite (timeout_not_http_error _ Hcls), Hcls.
Qed.

Lemma fetch_departures_http_error self (response : Response) :
  remote departures_request = Returned response →
  400 <= status_code response < 600 →
  ∃ msg,
    fetch_departures from_dict remote self
    = ([EvGet departures_request; EvLog WARNING "API error: %s" [msg]],
       Returned []).
Proof.
  intros Hget Hcode. unfold fetch_departures, requests_get.
  fold departures_request. rewrite Hget.
  destruct (raise_for_status_error _ Hcode) as [msg Hmsg].
  exists msg. simpl. by rewrite Hmsg.
Qed.

Lemma fetch_departures_uncaught self (ex : Py.exn) :
  remote departures_request = Raised ex →
  Py.issubclass (Py.exn_cls ex) Py.HTTPError = false →
  Py.issubclass (Py.exn_cls ex) Py.Timeout = false →
  fetch_departures from_dict remote self
  = ([EvGet departures_request], Raised ex).
Proof.
  intros Hget Hhttp Htime. unfold fetch_departures, requests_get.
  fold departures_request. rewrite Hget. simpl.
  by rewrite Hhttp, Htime.
Qed.

Lemma fetch_departures_not_json self (response : Response) :
  remote departures_request = Returned response →
  status_ok response →
  json_body response = None →
  fetch_departures from_dict remote self
  = ([EvGet departures_request;
      EvLog DEBUG "OK: departures for %s: %s" [Py.str (stop_id self); text response];
      EvLog ERROR "API invalid JSON: %s" [json_error response]],
     Returned []).
Proof.
  intros Hget Hok Hbody. unfold fetch_departures, requests_get.
  fold departures_request. rewrite Hget. simpl.
  rewrite (raise_for_status_ok _ Hok). simpl.
  unfold Response_json. by rewrite Hbody.
Qed.

Lemma fetch_departures_returns self (response : Response)
      (fields : list (string * Json.t)) (records : list Json.t)
      (events : list StopEvent.t) :
  remote departures_request = Returned response →
  status_ok response →
  json_body response = Some (Json.JObject fields) →
  Json.assoc "stopEvents" fields = Some (Json.JArray records) →
  Forall2 (fun d e => from_dict d = Returned e) records events →
  fetch_departures from_dict remote self
  = ([EvGet departures_request;
      EvLog DEBUG "OK: departures for %s: %s" [Py.str (stop_id self); text response]],
     Returned (sorted StopEvent.planned events)).
Proof.
  intros Hget Hok Hbody Hfield Hparse. unfold fetch_departures, requests_get.
  fold departures_request. rewrite Hget. simpl.
  rewrite (raise_for_status_ok _ Hok). simpl.
  unfold Response_json. rewrite Hbody. simpl. rewrite Hfield. simpl.
  by rewrite (comprehension_Returned _ _ Hparse).
Qed.

Lemma fetch_departures_field_missing self (response : Response)
      (fields : list (string * Json.t)) :
  remote departures_request = Returned response →
  status_ok response →
  json_body response = Some (Json.JObject fields) →
  Json.assoc "stopEvents" fields = None →
  fetch_departures from_dict remote self
  = ([EvGet departures_request;
      EvLog DEBUG "OK: departures for %s: %s" [Py.str (stop_id self); text response]],
     Raised (Py.Exn Py.TypeError "'NoneType' object is not iterable")).
Proof.
  intros Hget Hok Hbody Hfield. unfold fetch_departures, requests_get.
  fold departures_request. rewrite Hget. simpl.
  rewrite (raise_for_status_ok _ Hok). simpl.
  unfold Response_json. rewrite Hbody. simpl. by rewrite Hfield.
Qed.

End FetchFacts.

(** ** What a fetch sends *)

Section FetchRequests.
Context {HomeAssistant : Type}.
Variable from_dict : Json.t → outcome StopEvent.t.
Variable remote : Request → outcome Response.
Implicit Type self : @TransportSensor HomeAssistant.

(** Whatever the answer, one fetch issues exactly one GET, and it is
    [departures_request]: nothing of the sensor enters it. *)
Lemma fetch_departures_requests self :
  requests_of (trace_of (fetch_departures from_dict remote self))
  = [departures_request].
Proof.
  unfold fetch_departures, requests_get. fold departures_request.
  destruct (remote departures_request) as [response|ex]; simpl.
  - unfold raise_for_status.
    destruct (_ && _); simpl; [done|].
    destruct (_ && _); simpl; [done|].
    unfold Response_json.
    destruct (json_body response) as [body|]; simpl; [|done].
    destruct body as [| | | | |items|fields]; simpl; try done.
    destruct (default Json.JNull (Json.assoc "stopEvents" fields))
      as [| | | |s|items|fields']; simpl; try done.
    all: match goal with
         | |- context [@mapM ?M ?HB ?HR ?A ?B ?f ?l] =>
             pose proof (comprehension_trace from_dict l) as Htr;
             destruct (@mapM M HB HR A B f l) as [tr [es|ex]];
             simpl in *; by subst
         end.
  - destruct (Py.issubclass (Py.exn_cls ex) Py.HTTPError); simpl; [done|].
    destruct (Py.issubclass (Py.exn_cls ex) Py.Timeout); simpl; done.
Qed.

End FetchRequests.

(** C1. Every fetch sends [mode=direct], [outputFormat=rapidJSON],
    [type_dm=any], [useRealtime=1] and a 30 second timeout, but [name_dm] is
    the fixed text [de:09362:12009] and not the stop the sensor was
    configured with: the sensor built from a configuration with
    [stop_id = 4014080] asks for [de:09362:12009]. *)
Lemma fetch_departures_name_dm_fixed :
  let self := Example.fresh in
  let run := fetch_departures Example.from_dict (Example.remote_ok Example.payload) self in
  __init__ Example.CONF_DEPARTURES_NAME Example.CONF_DEPARTURES_STOP_ID
           Example.CONF_DEPARTURES_WALKING_TIME tt Example.cfg
  = ([], Returned self) ∧
  ∃ req,
    requests_of (trace_of run) = [req] ∧
    param "mode" (params req) = Some "direct" ∧
    param "outputFormat" (params req) = Some "rapidJSON" ∧
    param "type_dm" (params req) = Some "any" ∧
    param "useRealtime" (params req) = Some "1" ∧
    timeout req = 30 ∧
    Py.str (stop_id self) = "4014080" ∧
    param "name_dm" (params req) = Some "de:09362:12009" ∧
    param "name_dm" (params req) ≠ Some (Py.str (stop_id self)).
Proof.
  split; [by vm_compute|].
  exists departures_request. rewrite fetch_departures_requests.
  repeat split; by vm_compute.
Qed.

(** C2. A refused connection is not absorbed: [requests.get] raises
    [ConnectionError], neither [except] clause matches it, and it leaves
    [fetch_departures] with no log record written. *)
Lemma fetch_departures_connection_error_escapes :
  fetch_departures Example.from_dict Example.remote_refused Example.fresh
  = ([EvGet departures_request],
     Raised (Py.Exn Py.ConnectionError "Connection refused")).
Proof. by apply fetch_departures_uncaught. Qed.

(** C4. A 200 answer whose JSON object has no [stopEvents] field makes
    [.get] yield [None], and iterating over it raises [TypeError] out of
    [fetch_departures]. *)
Lemma fetch_departures_missing_field_raises :
  fetch_departures Example.from_dict (Example.remote_ok (Json.JObject []))
                   Example.fresh
  = ([EvGet departures_request;
      EvLog DEBUG "OK: departures for %s: %s" ["4014080"; ""]],
     Raised (Py.Exn Py.TypeError "'NoneType' object is not iterable")).
Proof.
  apply (fetch_departures_field_missing
           Example.from_dict (Example.remote_ok (Json.JObject [])) Example.fresh
           (Example.answer 200 "OK" (Some (Json.JObject []))) []).
  - reflexivity.
  - unfold status_ok. simpl. lia.
  - reflexivity.
  - reflexivity.
Qed.

(** ** A list kept in order keeps its pairs in order *)

Lemma filter_sublist_mono {A : Type} (P : A → Prop) `{!∀ x, Decision (P x)}
      (l1 l2 : list A) :
  l1 `sublist_of` l2 → filter P l1 `sublist_of` filter P l2.
Proof.
  induction 1 as [|x l1 l2 _ IH|x l1 l2 _ IH]; [constructor| |].
  - rewrite !filter_cons. case_decide; [by constructor|done].
  - rewrite filter_cons. case_decide; [by constructor|done].
Qed.

Lemma same_key_pair_kept {A : Type} (key : A → Z) (xs ys : list A) (a b : A) :
  (∀ k, filter (fun x => key x = k) ys = filter (fun x => key x = k) xs) →
  key a = key b →
  [a; b] `sublist_of` xs → [a; b] `sublist_of` ys.
Proof.
  intros Hf Hk Hsub.
  apply (filter_sublist_mono (fun x => key x = key a)) in Hsub.
  rewrite filter_cons_True, filter_cons_True in Hsub by done.
  rewrite <- Hf in Hsub. etrans; [exact Hsub|apply sublist_filter].
Qed.

(** ** The outcomes of a fetch *)

Section FetchClaims.
Context {HomeAssistant : Type}.
Variable from_dict : Json.t → outcome StopEvent.t.
Variable remote : Request → outcome Response.
Implicit Type self : @TransportSensor HomeAssistant.

(** C3. When the API answers with a status that [raise_for_status] lets
    through and a JSON object whose [stopEvents] is an array of N records
    that [from_dict] reads, [fetch_departures] returns N stop events: the
    parsed records, rearranged so that [planned] never decreases. *)
Theorem fetch_departures_count_and_order self (response : Response)
        (fields : list (string * Json.t)) (records : list Json.t)
        (events : list StopEvent.t) :
  remote departures_request = Returned response →
  status_ok response →
  json_body response = Some (Json.JObject fields) →
  Json.assoc "stopEvents" fields = Some (Json.JArray records) →
  Forall2 (fun d e => from_dict d = Returned e) records events →
  ∃ out,
    result_of (fetch_departures from_dict remote self) = Returned out ∧
    length out = length records ∧
    StronglySorted planned_le out ∧
    out ≡ₚ events.
Proof.
  intros Hget Hok Hbody Hfield Hparse.
  exists (sorted StopEvent.planned events).
  rewrite (fetch_departures_returns _ _ _ _ _ _ _ Hget Hok Hbody Hfield Hparse).
  split; [done|]. split; [|split].
  - rewrite sorted_length. symmetry. by eapply Forall2_length.
  - apply sorted_StronglySorted.
  - apply sorted_Permutation.
Qed.

(** C5. On an answer with a 4xx or 5xx status, and likewise when
    [requests.get] raises a timeout, [fetch_departures] returns the empty
    list and writes one log record, at warning level. *)
Theorem fetch_departures_warns_once self :
  (∃ response, remote departures_request = Returned response ∧
               400 <= status_code response < 600) ∨
  (∃ ex, remote departures_request = Raised ex ∧
         Py.issubclass (Py.exn_cls ex) Py.Timeout = true) →
  result_of (fetch_departures from_dict remote self) = Returned [] ∧
  ∃ format args,
    logs_of (trace_of (fetch_departures from_dict remote self))
    = [(WARNING, format, args)].
Proof.
  intros [(response & Hget & Hcode)|(ex & Hget & Hcls)].
  - destruct (fetch_departures_http_error from_dict remote self _ Hget Hcode)
      as [msg ->].
    split; [done|]. by exists "API error: %s", [msg].
  - rewrite (fetch_departures_timeout from_dict remote self _ Hget Hcls).
    split; [done|]. by exists "API timeout: %s", [Py.exn_msg ex].
Qed.

(** C6. When the body of an accepted answer is not valid JSON,
    [fetch_departures] returns the empty list and writes exactly one log
    record at error level. *)
Theorem fetch_departures_invalid_json self (response : Response) :
  remote departures_request = Returned response →
  status_ok response →
  json_body response = None →
  result_of (fetch_departures from_dict remote self) = Returned [] ∧
  ∃ format args,
    logs_at ERROR (trace_of (fetch_departures from_dict remote self))
    = [(ERROR, format, args)].
Proof.
  intros Hget Hok Hbody.
  rewrite (fetch_departures_not_json from_dict remote self _ Hget Hok Hbody).
  split; [done|]. by exists "API invalid JSON: %s", [json_error response].
Qed.

(** C7. The sort is stable. For every [planned] value, the stop events
    with that value come out in the order in which their records stand in
    [stopEvents]; so two events with the same [planned], one before the
    other in the input, are in that order in the output. *)
Theorem fetch_departures_stable self (response : Response)
        (fields : list (string * Json.t)) (records : list Json.t)
        (events : list StopEvent.t) :
  remote departures_request = Returned response →
  status_ok response →
  json_body response = Some (Json.JObject fields) →
  Json.assoc "stopEvents" fields = Some (Json.JArray records) →
  Forall2 (fun d e => from_dict d = Returned e) records events →
  ∃ out,
    result_of (fetch_departures from_dict remote self) = Returned out ∧
    (∀ p, filter (fun e => StopEvent.planned e = p) out
          = filter (fun e => StopEvent.planned e = p) events) ∧
    (∀ a b, StopEvent.planned a = StopEvent.planned b →
            [a; b] `sublist_of` events → [a; b] `sublist_of` out).
Proof.
  intros Hget Hok Hbody Hfield Hparse.
  exists (sorted StopEvent.planned events).
  rewrite (fetch_departures_returns _ _ _ _ _ _ _ Hget Hok Hbody Hfield Hparse).
  split; [done|].
  assert (∀ p, filter (fun e => StopEvent.planned e = p)
                      (sorted StopEvent.planned events)
               = filter (fun e => StopEvent.planned e = p) events) as Hstable
    by (intros p; apply sorted_filter).
  split; [done|]. intros a b Hp.
  by apply (same_key_pair_kept StopEvent.planned).
Qed.

End FetchClaims.

(** The example payload, fetched: three records in, three events out, the
    one planned at 1002 first. *)
Lemma fetch_departures_count_and_order_witness :
  ∃ out,
    result_of (fetch_departures Example.from_dict
                 (Example.remote_ok Example.payload) Example.fresh)
    = Returned out ∧
    length out = 3%nat ∧
    StronglySorted planned_le out ∧
    out ≡ₚ [Example.event 1005 "6"; Example.event 1002 "1"; Example.event 1005 "11"].
Proof.
  apply (fetch_departures_count_and_order
           Example.from_dict (Example.remote_ok Example.payload) Example.fresh
           (Example.answer 200 "OK" (Some Example.payload))
           [("version", Json.JString "10.4");
            ("stopEvents",
             Json.JArray [Example.record 1005 "6"; Example.record 1002 "1";
                          Example.record 1005 "11"])]
           [Example.record 1005 "6"; Example.record 1002 "1";
            Example.record 1005 "11"]).
  - reflexivity.
  - unfold status_ok. simpl. lia.
  - reflexivity.
  - reflexivity.
  - repeat constructor.
Defined.

(** A 500 answer and a read timeout. *)
Lemma fetch_departures_warns_once_witness :
  (result_of (fetch_departures Example.from_dict Example.remote_500 Example.fresh)
   = Returned [] ∧
   ∃ format args,
     logs_of (trace_of (fetch_departures Example.from_dict Example.remote_500
                                         Example.fresh))
     = [(WARNING, format, args)]) ∧
  (result_of (fetch_departures Example.from_dict Example.remote_timeout Example.fresh)
   = Returned [] ∧
   ∃ format args,
     logs_of (trace_of (fetch_departures Example.from_dict Example.remote_timeout
                                         Example.fresh))
     = [(WARNING, format, args)]).
Proof.
  split.
  - apply (fetch_departures_warns_once Example.from_dict Example.remote_500).
    left. exists (Example.answer 500 "Internal Server Error" None).
    split; [reflexivity|]. simpl. lia.
  - apply (fetch_departures_warns_once Example.from_dict Example.remote_timeout).
    right. exists (Py.Exn Py.ReadTimeout "Read timed out. (read timeout=30)").
    split; reflexivity.
Defined.

(** A 200 answer whose body is not JSON. *)
Lemma fetch_departures_invalid_json_witness :
  result_of (fetch_departures Example.from_dict Example.remote_not_json Example.fresh)
  = Returned [] ∧
  ∃ format args,
    logs_at ERROR (trace_of (fetch_departures Example.from_dict
                               Example.remote_not_json Example.fresh))
    = [(ERROR, format, args)].
Proof.
  apply (fetch_departures_invalid_json
           Example.from_dict Example.remote_not_json Example.fresh
           (Example.answer 200 "OK" None)).
  - reflexivity.
  - unfold status_ok. simpl. lia.
  - reflexivity.
Defined.

(** In the example payload lines 6 and 11 are both planned at 1005, 6 first;
    so they are in the output. *)
Lemma fetch_departures_stable_witness :
  ∃ out,
    result_of (fetch_departures Example.from_dict
                 (Example.remote_ok Example.payload) Example.fresh)
    = Returned out ∧
    [Example.event 1005 "6"; Example.event 1005 "11"] `sublist_of` out.
Proof.
  destruct (fetch_departures_stable
              Example.from_dict (Example.remote_ok Example.payload) Example.fresh
              (Example.answer 200 "OK" (Some Example.payload))
              [("version", Json.JString "10.4");
               ("stopEvents",
                Json.JArray [Example.record 1005 "6"; Example.record 1002 "1";
                             Example.record 1005 "11"])]
              [Example.record 1005 "6"; Example.record 1002 "1";
               Example.record 1005 "11"]
              [Example.event 1005 "6"; Example.event 1002 "1";
               Example.event 1005 "11"])
    as (out & Hout & _ & Hpairs).
  - reflexivity.
  - unfold status_ok. simpl. lia.
  - reflexivity.
  - reflexivity.
  - repeat constructor.
  - exists out. split; [exact Hout|].
    apply Hpairs; [reflexivity|].
    apply sublist_skip, sublist_cons, sublist_skip, sublist_nil.
Defined.

(** ** The sensor's own state *)

(** The head of an ascending list has the least key. *)
Lemma head_least (e : StopEvent.t) (rest : list StopEvent.t) :
  StronglySorted planned_le (e :: rest) →
  ∀ e', e' ∈ e :: rest → StopEvent.planned e <= StopEvent.planned e'.
Proof.
  intros Hsorted e' Hin.
  apply StronglySorted_inv in Hsorted as [_ Hall].
  apply elem_of_cons in Hin as [->|Hin]; [lia|].
  rewrite Forall_forall in Hall. by apply Hall.
Qed.

(** C8. [next_departure] performs no event and always returns: [None] when
    [stop_events] is [None] or the empty list, and otherwise the first
    element, which in an ascending list is one of least [planned]. *)
Theorem next_departure_total_first {HomeAssistant : Type}
        (self : @TransportSensor HomeAssistant) :
  (∃ r, next_departure self = ([], Returned r)) ∧
  (stop_events self = SE_None ∨ stop_events self = SE_List [] →
   next_departure self = ([], Returned None)) ∧
  (∀ e rest, stop_events self = SE_List (e :: rest) →
     next_departure self = ([], Returned (Some e)) ∧
     (StronglySorted planned_le (e :: rest) →
      ∀ e', e' ∈ e :: rest → StopEvent.planned e <= StopEvent.planned e')).
Proof.
  unfold next_departure. split; [|split].
  - destruct (stop_events self) as [|[|e rest]]; simpl; eauto.
  - by intros [->| ->].
  - intros e rest ->. split; [done|]. apply head_least.
Qed.

Lemma next_departure_total_first_witness :
  next_departure Example.fresh = ([], Returned None) ∧
  ∀ updated,
    result_of (async_update Example.from_dict (Example.remote_ok Example.payload)
                            Example.fresh)
    = Returned updated →
    next_departure updated = ([], Returned (Some (Example.event 1002 "1"))).
Proof.
  split.
  - apply (next_departure_total_first Example.fresh). by right.
  - intros updated [= <-].
    by apply (next_departure_total_first _) with
      (rest := [Example.event 1005 "6"; Example.event 1005 "11"]).
Defined.

(** C9, as the code has it. A sensor on which no update has run holds the
    empty list, not [None]: it shows an empty [departures] attribute and no
    next departure, and an update whose fetch returns the empty list leaves
    it as it was. *)
Theorem fresh_sensor_holds_empty_list {HomeAssistant Mapping : Type}
        (NAME STOP_ID WALKING_TIME : string)
        (from_dict : Json.t → outcome StopEvent.t)
        (to_dict : StopEvent.t → Mapping)
        (remote : Request → outcome Response)
        (h : HomeAssistant) (cfg : gmap string Py.value)
        (self : @TransportSensor HomeAssistant) :
  result_of (__init__ NAME STOP_ID WALKING_TIME h cfg) = Returned self →
  stop_events self = SE_List [] ∧
  extra_state_attributes to_dict self = [("departures", [])] ∧
  next_departure self = ([], Returned None) ∧
  (result_of (fetch_departures from_dict remote self) = Returned [] →
   result_of (async_update from_dict remote self) = Returned self).
Proof.
  unfold __init__, config_getitem, result_of.
  destruct (cfg !! STOP_ID) as [sid|]; simpl; [|done].
  intros [= <-]. repeat split.
  unfold async_update, result_of.
  destruct (fetch_departures _ _ _) as [tr [out|ex]]; simpl; [|done].
  by intros [= ->].
Qed.

Lemma fresh_sensor_holds_empty_list_witness :
  stop_events Example.fresh = SE_List [] ∧
  extra_state_attributes Example.to_dict Example.fresh = [("departures", [])] ∧
  next_departure Example.fresh = ([], Returned None) ∧
  result_of (async_update Example.from_dict Example.remote_500 Example.fresh)
  = Returned Example.fresh.
Proof.
  destruct (fresh_sensor_holds_empty_list
              Example.CONF_DEPARTURES_NAME Example.CONF_DEPARTURES_STOP_ID
              Example.CONF_DEPARTURES_WALKING_TIME
              Example.from_dict Example.to_dict Example.remote_500
              tt Example.cfg Example.fresh)
    as (Hevents & Hattrs & Hnext & Hupdate).
  - by vm_compute.
  - split; [exact Hevents|]. split; [exact Hattrs|]. split; [exact Hnext|].
    apply Hupdate. reflexivity.
Defined.

(** C9, as the spec has it, fails. The sensor just built from the example
    configuration does not hold [None], and after an update that ran into a
    timeout it is the very same sensor: same stored list, same attributes,
    same next departure. *)
Lemma fresh_sensor_not_absent :
  let self := Example.fresh in
  __init__ Example.CONF_DEPARTURES_NAME Example.CONF_DEPARTURES_STOP_ID
           Example.CONF_DEPARTURES_WALKING_TIME tt Example.cfg
  = ([], Returned self) ∧
  stop_events self ≠ SE_None ∧
  ∃ failed,
    async_update Example.from_dict Example.remote_timeout self
    = ([EvGet departures_request;
        EvLog WARNING "API timeout: %s" ["Read timed out. (read timeout=30)"]],
       Returned failed) ∧
    stop_events failed = stop_events self ∧
    extra_state_attributes Example.to_dict failed
    = extra_state_attributes Example.to_dict self ∧
    next_departure failed = next_departure self ∧
    failed = self.
Proof.
  split; [by vm_compute|]. split; [done|].
  exists Example.fresh. by repeat split.
Qed.

(** C10. When the configuration has the stop-id key, construction succeeds;
    the sensor's [walking_time] is 1 when the walking-time key is absent or
    holds [None] or 0, and is the configured number when that is positive. *)
Theorem init_walking_time {HomeAssistant : Type}
        (NAME STOP_ID WALKING_TIME : string)
        (h : HomeAssistant) (cfg : gmap string Py.value) (sid : Py.value) :
  cfg !! STOP_ID = Some sid →
  ∃ self : @TransportSensor HomeAssistant,
    __init__ NAME STOP_ID WALKING_TIME h cfg = ([], Returned self) ∧
    (cfg !! WALKING_TIME = None ∨
     cfg !! WALKING_TIME = Some Py.VNone ∨
     cfg !! WALKING_TIME = Some (Py.VInt 0) →
     walking_time self = Py.VInt 1) ∧
    (∀ n, 0 < n → cfg !! WALKING_TIME = Some (Py.VInt n) →
          walking_time self = Py.VInt n).
Proof.
  intros Hsid. unfold __init__, config_getitem. rewrite Hsid.
  eexists. split; [reflexivity|]. simpl. unfold config_get. split.
  - by intros [-> | [-> | ->]].
  - intros n Hn ->. simpl. unfold Py.or. simpl.
    destruct (Z.eqb_spec n 0); [lia|done].
Qed.

Lemma init_walking_time_witness :
  ∃ absent zero five : @TransportSensor unit,
    (__init__ "name" "stop_id" "walking_time" tt Example.cfg
     = ([], Returned absent) ∧ walking_time absent = Py.VInt 1) ∧
    (__init__ "name" "stop_id" "walking_time" tt
              (<["walking_time" := Py.VInt 0]> Example.cfg)
     = ([], Returned zero) ∧ walking_time zero = Py.VInt 1) ∧
    (__init__ "name" "stop_id" "walking_time" tt
              (<["walking_time" := Py.VInt 5]> Example.cfg)
     = ([], Returned five) ∧ walking_time five = Py.VInt 5).
Proof.
  destruct (init_walking_time "name" "stop_id" "walking_time" tt
              Example.cfg (Py.VInt 4014080))
    as (absent & Habsent & Hone & _); [by vm_compute|].
  destruct (init_walking_time "name" "stop_id" "walking_time" tt
              (<["walking_time" := Py.VInt 0]> Example.cfg) (Py.VInt 4014080))
    as (zero & Hzero & Hone' & _); [by vm_compute|].
  destruct (init_walking_time "name" "stop_id" "walking_time" tt
              (<["walking_time" := Py.VInt 5]> Example.cfg) (Py.VInt 4014080))
    as (five & Hfive & _ & Hkept); [by vm_compute|].
  exists absent, zero, five. repeat split; try done.
  - apply Hone. left. by vm_compute.
  - apply Hone'. right. right. by vm_compute.
  - apply (Hkept 5); [lia|by vm_compute].
Defined.


(** * Further properties of the sensor *)

(** ** Every fetch has one of five shapes *)

Section FetchShape.
Context {HomeAssistant : Type}.
Variable from_dict : Json.t → outcome StopEvent.t.
Variable remote : Request → outcome Response.
Implicit Type self : @TransportSensor HomeAssistant.

Lemma fetch_departures_shape self :
  ∃ logs r,
    fetch_departures from_dict remote self = (EvGet departures_request :: logs, r) ∧
    fetch_shape (Py.str (stop_id self)) logs r.
Proof.
  unfold fetch_departures, requests_get. fold departures_request.
  destruct (remote departures_request) as [response|ex]; simpl.
  - unfold raise_for_status.
    destruct (_ && _); simpl; [eexists _, _; split; [done|constructor]|].
    destruct (_ && _); simpl; [eexists _, _; split; [done|constructor]|].
    unfold Response_json.
    destruct (json_body response) as [body|]; simpl;
      [|eexists _, _; split; [done|constructor]].
    destruct body as [| | | | |items|fields]; simpl;
      try (eexists _, _; split; [done|constructor]).
    destruct (default Json.JNull (Json.assoc "stopEvents" fields))
      as [| | | |s|items|fields']; simpl;
      try (eexists _, _; split; [done|constructor]).
    all: match goal with
         | |- context [@mapM ?M ?HB ?HR ?A ?B ?f ?l] =>
             pose proof (comprehension_trace from_dict l) as Htr;
             destruct (@mapM M HB HR A B f l) as [tr [es|ex]];
             simpl in *; subst; (eexists _, _; split; [done|constructor])
         end.
  - destruct (Py.issubclass (Py.exn_cls ex) Py.HTTPError); simpl;
      [eexists _, _; split; [done|constructor]|].
    destruct (Py.issubclass (Py.exn_cls ex) Py.Timeout); simpl;
      eexists _, _; split; done || constructor.
Qed.

Lemma fetch_shape_ascending (sid : string) (logs : list event)
      (out : list StopEvent.t) :
  fetch_shape sid logs (Returned out) → StronglySorted planned_le out.
Proof.
  inversion 1; subst; try constructor. apply sorted_StronglySorted.
Qed.

(** Whatever the API answers and whatever [from_dict] does, a list that
    [fetch_departures] returns is ascending by [planned]. *)
Theorem fetch_departures_always_ascending self (out : list StopEvent.t) :
  result_of (fetch_departures from_dict remote self) = Returned out →
  StronglySorted planned_le out.
Proof.
  destruct (fetch_departures_shape self) as (logs & r & -> & Hshape).
  unfold result_of. simpl. intros ->.
  by eapply fetch_shape_ascending.
Qed.

(** A fetch writes at most two log records. An exception that leaves it
    has been logged neither as a warning nor as an error, and a fetch that
    did write a warning or an error returned the empty list. *)
Theorem fetch_departures_log_discipline self :
  let run := fetch_departures from_dict remote self in
  (length (logs_of (trace_of run)) <= 2)%nat ∧
  (∀ ex, result_of run = Raised ex →
         logs_at WARNING (trace_of run) = [] ∧ logs_at ERROR (trace_of run) = []) ∧
  (logs_at WARNING (trace_of run) ≠ [] ∨ logs_at ERROR (trace_of run) ≠ [] →
   result_of run = Returned []).
Proof.
  destruct (fetch_departures_shape self) as (logs & r & -> & Hshape).
  unfold trace_of, result_of. simpl.
  inversion Hshape; subst; simpl; (split; [lia|]); split;
    try done; try (by intros [|]).
Qed.

End FetchShape.

Lemma fetch_departures_always_ascending_witness :
  StronglySorted planned_le
    [Example.event 1002 "1"; Example.event 1005 "6"; Example.event 1005 "11"].
Proof.
  apply (fetch_departures_always_ascending
           Example.from_dict (Example.remote_ok Example.payload) Example.fresh).
  reflexivity.
Defined.

(** A refused connection leaves no warning and no error behind; a 500
    answer, which does, returns the empty list. *)
Lemma fetch_departures_log_discipline_witness :
  (logs_at WARNING (trace_of (fetch_departures Example.from_dict
                                Example.remote_refused Example.fresh)) = [] ∧
   logs_at ERROR (trace_of (fetch_departures Example.from_dict
                              Example.remote_refused Example.fresh)) = []) ∧
  result_of (fetch_departures Example.from_dict Example.remote_500 Example.fresh)
  = Returned [].
Proof.
  split.
  - destruct (fetch_departures_log_discipline
                Example.from_dict Example.remote_refused Example.fresh)
      as (_ & Hsilent & _).
    apply (Hsilent (Py.Exn Py.ConnectionError "Connection refused")).
    reflexivity.
  - destruct (fetch_departures_log_discipline
                Example.from_dict Example.remote_500 Example.fresh)
      as (_ & _ & Hempty).
    apply Hempty. left. by vm_compute.
Defined.

(** ** What a fetch does not depend on *)

(** The result of a fetch and the request it sends are the same for any two
    sensors, whatever their configuration, stop id or stored departures. *)
Theorem fetch_departures_same_for_all_sensors {H1 H2 : Type}
        (from_dict : Json.t → outcome StopEvent.t)
        (remote : Request → outcome Response)
        (self1 : @TransportSensor H1) (self2 : @TransportSensor H2) :
  result_of (fetch_departures from_dict remote self1)
  = result_of (fetch_departures from_dict remote self2) ∧
  requests_of (trace_of (fetch_departures from_dict remote self1))
  = requests_of (trace_of (fetch_departures from_dict remote self2)).
Proof.
  split; [|by rewrite !fetch_departures_requests].
  unfold fetch_departures, requests_get.
  destruct (remote _) as [response|ex]; simpl.
  - unfold raise_for_status.
    destruct (_ && _); simpl; [done|].
    destruct (_ && _); simpl; [done|].
    unfold Response_json.
    destruct (json_body response) as [body|]; simpl; [|done].
    destruct body as [| | | | |items|fields]; simpl; try done.
    destruct (default Json.JNull (Json.assoc "stopEvents" fields))
      as [| | | |s|items|fields']; simpl; try done.
    all: match goal with
         | |- context [@mapM ?M ?HB ?HR ?A ?B ?f ?l] =>
             by destruct (@mapM M HB HR A B f l) as [tr [es|ex]]
         end.
  - destruct (Py.issubclass (Py.exn_cls ex) Py.HTTPError); simpl; [done|].
    by destruct (Py.issubclass (Py.exn_cls ex) Py.Timeout).
Qed.

(** ** Malformed answers *)

Section FetchMalformed.
Context {HomeAssistant : Type}.
Variable from_dict : Json.t → outcome StopEvent.t.
Variable remote : Request → outcome Response.
Implicit Type self : @TransportSensor HomeAssistant.

Lemma comprehension_Raised (good : list Json.t) (events : list StopEvent.t)
      (bad : Json.t) (rest : list Json.t) (ex : Py.exn) :
  Forall2 (fun d e => from_dict d = Returned e) good events →
  from_dict bad = Raised ex →
  mapM (fun departure => ([], from_dict departure) : Eff _) (good ++ bad :: rest)
  = ([], Raised ex).
Proof.
  intros Hgood Hbad.
  induction Hgood as [|d e ds es Hd _ IH]; simpl.
  - by rewrite Hbad.
  - rewrite Hd. simpl. by rewrite IH.
Qed.

(** One record that [from_dict] cannot read loses the whole answer: the
    exception of the first such record leaves [fetch_departures], after the
    debug record and without a warning, whatever the other records are. *)
Theorem fetch_departures_bad_record_escapes self (response : Response)
        (fields : list (string * Json.t)) (good rest : list Json.t) (bad : Json.t)
        (events : list StopEvent.t) (ex : Py.exn) :
  remote departures_request = Returned response →
  status_ok response →
  json_body response = Some (Json.JObject fields) →
  Json.assoc "stopEvents" fields = Some (Json.JArray (good ++ bad :: rest)) →
  Forall2 (fun d e => from_dict d = Returned e) good events →
  from_dict bad = Raised ex →
  fetch_departures from_dict remote self
  = ([EvGet departures_request;
      EvLog DEBUG "OK: departures for %s: %s" [Py.str (stop_id self); text response]],
     Raised ex).
Proof.
  intros Hget Hok Hbody Hfield Hgood Hbad. unfold fetch_departures, requests_get.
  fold departures_request. rewrite Hget. simpl.
  rewrite (raise_for_status_ok _ Hok). simpl.
  unfold Response_json. rewrite Hbody. simpl. rewrite Hfield. simpl.
  by rewrite (comprehension_Raised _ _ _ _ _ Hgood Hbad).
Qed.

(** A body that is valid JSON but not an object (an array, a string, a
    number, [null]) is not caught by the invalid-JSON clause: the
    [AttributeError] of [.get] leaves [fetch_departures]. *)
Theorem fetch_departures_non_object_body_escapes self (response : Response)
        (body : Json.t) :
  remote departures_request = Returned response →
  status_ok response →
  json_body response = Some body →
  (∀ fields, body ≠ Json.JObject fields) →
  ∃ msg,
    fetch_departures from_dict remote self
    = ([EvGet departures_request;
        EvLog DEBUG "OK: departures for %s: %s"
              [Py.str (stop_id self); text response]],
       Raised (Py.Exn Py.AttributeError msg)).
Proof.
  intros Hget Hok Hbody Hshape. unfold fetch_departures, requests_get.
  fold departures_request. rewrite Hget. simpl.
  rewrite (raise_for_status_ok _ Hok). simpl.
  unfold Response_json. rewrite Hbody. simpl.
  destruct body; simpl; eauto. by destruct (Hshape fields).
Qed.

(** A [stopEvents] field that is present but holds [null], a boolean or a
    number fares like a missing one: [TypeError] leaves [fetch_departures]. *)
Theorem fetch_departures_scalar_field_escapes self (response : Response)
        (fields : list (string * Json.t)) (v : Json.t) :
  remote departures_request = Returned response →
  status_ok response →
  json_body response = Some (Json.JObject fields) →
  Json.assoc "stopEvents" fields = Some v →
  (v = Json.JNull ∨ (∃ b, v = Json.JBool b) ∨ (∃ z, v = Json.JInt z)
   ∨ (∃ s, v = Json.JFloat s)) →
  ∃ msg,
    fetch_departures from_dict remote self
    = ([EvGet departures_request;
        EvLog DEBUG "OK: departures for %s: %s"
              [Py.str (stop_id self); text response]],
       Raised (Py.Exn Py.TypeError msg)).
Proof.
  intros Hget Hok Hbody Hfield Hv. unfold fetch_departures, requests_get.
  fold departures_request. rewrite Hget. simpl.
  rewrite (raise_for_status_ok _ Hok). simpl.
  unfold Response_json. rewrite Hbody. simpl. rewrite Hfield. simpl.
  destruct Hv as [-> | [[b ->] | [[z ->] | [s ->]]]]; simpl; eauto.
Qed.

(** Records that arrive in ascending order of [planned] are returned in
    the order of the API, unchanged. *)
Theorem fetch_departures_keeps_ascending_input self (response : Response)
        (fields : list (string * Json.t)) (records : list Json.t)
        (events : list StopEvent.t) :
  remote departures_request = Returned response →
  status_ok response →
  json_body response = Some (Json.JObject fields) →
  Json.assoc "stopEvents" fields = Some (Json.JArray records) →
  Forall2 (fun d e => from_dict d = Returned e) records events →
  StronglySorted planned_le events →
  result_of (fetch_departures from_dict remote self) = Returned events.
Proof.
  intros Hget Hok Hbody Hfield Hparse Hsorted.
  rewrite (fetch_departures_returns _ _ _ _ _ _ _ Hget Hok Hbody Hfield Hparse).
  unfold result_of. simpl. f_equal. symmetry.
  by apply (sorted_unique StopEvent.planned).
Qed.

End FetchMalformed.

(** The record without [planned] raises [KeyError]; the two good records
    around it are lost with it. *)
Lemma fetch_departures_bad_record_escapes_witness :
  fetch_departures Example.from_dict (Example.remote_ok Showcase.broken_payload)
                   Example.fresh
  = ([EvGet departures_request;
      EvLog DEBUG "OK: departures for %s: %s" ["4014080"; ""]],
     Raised (Py.Exn Py.KeyError "'planned'")).
Proof.
  apply (fetch_departures_bad_record_escapes
           Example.from_dict (Example.remote_ok Showcase.broken_payload)
           Example.fresh
           (Example.answer 200 "OK" (Some Showcase.broken_payload))
           [("stopEvents",
             Json.JArray [Example.record 1005 "6";
                          Json.JObject [("line", Json.JString "1")];
                          Example.record 1001 "11"])]
           [Example.record 1005 "6"] [Example.record 1001 "11"]
           (Json.JObject [("line", Json.JString "1")])
           [Example.event 1005 "6"]).
  - reflexivity.
  - unfold status_ok. simpl. lia.
  - reflexivity.
  - reflexivity.
  - repeat constructor.
  - reflexivity.
Defined.

(** The body [[]]. *)
Lemma fetch_departures_non_object_body_escapes_witness :
  ∃ msg,
    fetch_departures Example.from_dict (Example.remote_ok (Json.JArray []))
                     Example.fresh
    = ([EvGet departures_request;
        EvLog DEBUG "OK: departures for %s: %s" ["4014080"; ""]],
       Raised (Py.Exn Py.AttributeError msg)).
Proof.
  apply (fetch_departures_non_object_body_escapes
           Example.from_dict (Example.remote_ok (Json.JArray [])) Example.fresh
           (Example.answer 200 "OK" (Some (Json.JArray []))) (Json.JArray [])).
  - reflexivity.
  - unfold status_ok. simpl. lia.
  - reflexivity.
  - intros fields. discriminate.
Defined.

(** The body [{"stopEvents": null}]. *)
Lemma fetch_departures_scalar_field_escapes_witness :
  ∃ msg,
    fetch_departures Example.from_dict
      (Example.remote_ok (Json.JObject [("stopEvents", Json.JNull)])) Example.fresh
    = ([EvGet departures_request;
        EvLog DEBUG "OK: departures for %s: %s" ["4014080"; ""]],
       Raised (Py.Exn Py.TypeError msg)).
Proof.
  apply (fetch_departures_scalar_field_escapes
           Example.from_dict
           (Example.remote_ok (Json.JObject [("stopEvents", Json.JNull)]))
           Example.fresh
           (Example.answer 200 "OK" (Some (Json.JObject [("stopEvents", Json.JNull)])))
           [("stopEvents", Json.JNull)] Json.JNull).
  - reflexivity.
  - unfold status_ok. simpl. lia.
  - reflexivity.
  - reflexivity.
  - left. reflexivity.
Defined.

Lemma fetch_departures_keeps_ascending_input_witness :
  result_of (fetch_departures Example.from_dict
               (Example.remote_ok Showcase.ordered_payload) Example.fresh)
  = Returned [Example.event 1002 "1"; Example.event 1005 "6"].
Proof.
  apply (fetch_departures_keeps_ascending_input
           Example.from_dict (Example.remote_ok Showcase.ordered_payload)
           Example.fresh
           (Example.answer 200 "OK" (Some Showcase.ordered_payload))
           [("stopEvents",
             Json.JArray [Example.record 1002 "1"; Example.record 1005 "6"])]
           [Example.record 1002 "1"; Example.record 1005 "6"]).
  - reflexivity.
  - unfold status_ok. simpl. lia.
  - reflexivity.
  - reflexivity.
  - repeat constructor.
  - repeat constructor; unfold planned_le, key_le; simpl; lia.
Defined.

(** ** Names and identifiers *)

Lemma string_length_app (s t : string) :
  String.length (s +:+ t) = (String.length s + String.length t)%nat.
Proof. induction s as [|c s IH]; simpl; [done|]. by rewrite IH. Qed.

Lemma string_app_inv_tail (s1 s2 t : string) : s1 +:+ t = s2 +:+ t → s1 = s2.
Proof.
  revert s2. induction s1 as [|c1 s1 IH]; intros [|c2 s2] Heq.
  - done.
  - apply (f_equal String.length) in Heq.
    rewrite !string_length_app in Heq. simpl in Heq. lia.
  - apply (f_equal String.length) in Heq.
    rewrite !string_length_app in Heq. simpl in Heq. lia.
  - change (String c1 (s1 +:+ t) = String c2 (s2 +:+ t)) in Heq.
    injection Heq as -> Heq. f_equal. by apply IH.
Qed.

(** Sensors for different integer stop ids have different unique ids. *)
Theorem unique_id_distinct {H1 H2 : Type}
        (self1 : @TransportSensor H1) (self2 : @TransportSensor H2) (m n : Z) :
  stop_id self1 = Py.VInt m →
  stop_id self2 = Py.VInt n →
  m ≠ n →
  unique_id self1 ≠ unique_id self2.
Proof.
  unfold unique_id. intros -> -> Hne Heq. apply Hne. simpl in Heq.
  apply (inj (String.app "stop_")) in Heq.
  apply string_app_inv_tail in Heq.
  by apply (inj pretty) in Heq.
Qed.

Lemma unique_id_distinct_witness :
  unique_id Example.fresh ≠ unique_id Showcase.unnamed.
Proof.
  apply (unique_id_distinct Example.fresh Showcase.unnamed 4014080 4014081).
  - reflexivity.
  - reflexivity.
  - lia.
Defined.

(** The name of a sensor is never empty or [None]: it is the configured
    name when that is a non-empty value, and [Stop ID: ] followed by the stop
    id in every other case. *)
Theorem name_never_empty {HomeAssistant : Type}
        (self : @TransportSensor HomeAssistant) :
  Py.truthy (name self) = true ∧
  (Py.truthy (sensor_name self) = true → name self = sensor_name self) ∧
  (Py.truthy (sensor_name self) = false →
   name self = Py.VStr ("Stop ID: " +:+ Py.str (stop_id self))).
Proof.
  unfold name, Py.or.
  destruct (Py.truthy (sensor_name self)) eqn:Hname; by repeat split.
Qed.

Lemma name_never_empty_witness :
  name Example.fresh = Py.VStr "Hauptbahnhof" ∧
  name Showcase.unnamed = Py.VStr "Stop ID: 4014081".
Proof.
  split.
  - apply (name_never_empty Example.fresh). reflexivity.
  - apply (name_never_empty Showcase.unnamed). reflexivity.
Defined.

(** ** Updates *)

Section Updates.
Context {HomeAssistant : Type}.
Variable from_dict : Json.t → outcome StopEvent.t.
Variable remote : Request → outcome Response.
Implicit Type self : @TransportSensor HomeAssistant.

(** A fetch reads nothing of the sensor but the stop id it prints. *)
Lemma fetch_departures_reads_stop_id self1 self2 :
  stop_id self1 = stop_id self2 →
  fetch_departures from_dict remote self1 = fetch_departures from_dict remote self2.
Proof. unfold fetch_departures. by intros ->. Qed.

Lemma async_update_Returned self (tr : list event) (updated : TransportSensor) :
  async_update from_dict remote self = (tr, Returned updated) →
  ∃ out,
    fetch_departures from_dict remote self = (tr, Returned out) ∧
    updated = {| hass := hass self;
                 config := config self;
                 stop_id := stop_id self;
                 sensor_name := sensor_name self;
                 direction := direction self;
                 walking_time := walking_time self;
                 stop_events := SE_List out |}.
Proof.
  unfold async_update.
  destruct (fetch_departures from_dict remote self) as [tr' [out|ex]]; simpl; [|done].
  rewrite app_nil_r. intros [= -> <-]. by exists out.
Qed.

(** An update that succeeds touches nothing but the stored departures:
    configuration, name, unique id and walking time are as before, and the
    sensor then holds a list, ascending by [planned]. *)
Theorem async_update_changes_only_departures self (updated : TransportSensor) :
  result_of (async_update from_dict remote self) = Returned updated →
  config updated = config self ∧
  name updated = name self ∧
  unique_id updated = unique_id self ∧
  walking_time updated = walking_time self ∧
  ∃ out, stop_events updated = SE_List out ∧ StronglySorted planned_le out.
Proof.
  destruct (async_update from_dict remote self) as [tr r] eqn:Hrun.
  unfold result_of. simpl. intros ->.
  apply async_update_Returned in Hrun as (out & Hfetch & ->).
  repeat split. exists out. split; [done|].
  destruct (fetch_departures_shape from_dict remote self)
    as (logs & r & Hshape_eq & Hshape).
  rewrite Hfetch in Hshape_eq. injection Hshape_eq as _ <-.
  by eapply fetch_shape_ascending.
Qed.

(** Updating again against the same answers changes nothing: the second
    update performs the same events and returns the same sensor. *)
Theorem async_update_idempotent self (tr : list event) (updated : TransportSensor) :
  async_update from_dict remote self = (tr, Returned updated) →
  async_update from_dict remote updated = (tr, Returned updated).
Proof.
  intros Hrun. pose proof Hrun as Hrun'.
  apply async_update_Returned in Hrun' as (out & Hfetch & Hupdated).
  rewrite <- Hrun. unfold async_update.
  rewrite (fetch_departures_reads_stop_id updated self) by by subst.
  rewrite Hfetch. simpl. by subst.
Qed.

(** After an update on a payload with at least one record, the next
    departure is a parsed record of least [planned], the first such in the
    order of the API, and the sensor shows its icon. *)
Theorem async_update_next_departure (DEFAULT_ICON : string) self
        (response : Response) (fields : list (string * Json.t))
        (records : list Json.t) (events : list StopEvent.t) :
  remote departures_request = Returned response →
  status_ok response →
  json_body response = Some (Json.JObject fields) →
  Json.assoc "stopEvents" fields = Some (Json.JArray records) →
  Forall2 (fun d e => from_dict d = Returned e) records events →
  records ≠ [] →
  ∃ updated first,
    result_of (async_update from_dict remote self) = Returned updated ∧
    next_departure updated = ([], Returned (Some first)) ∧
    icon DEFAULT_ICON updated = ([], Returned (StopEvent.icon first)) ∧
    first ∈ events ∧
    (∀ e, e ∈ events → StopEvent.planned first <= StopEvent.planned e) ∧
    head (filter (fun e => StopEvent.planned e = StopEvent.planned first) events)
    = Some first.
Proof.
  intros Hget Hok Hbody Hfield Hparse Hrecords.
  pose proof (fetch_departures_returns _ _ self _ _ _ _ Hget Hok Hbody Hfield Hparse)
    as Hfetch.
  pose proof (sorted_Permutation StopEvent.planned events) as Hperm.
  pose proof (sorted_StronglySorted StopEvent.planned events) as Hsorted.
  pose proof (fun p => sorted_filter StopEvent.planned p events) as Hstable.
  destruct (sorted StopEvent.planned events) as [|first rest] eqn:Hout.
  { apply Permutation_nil in Hperm. subst events.
    apply Forall2_nil_inv_r in Hparse. done. }
  eexists _, first. unfold async_update. rewrite Hfetch. simpl.
  split; [reflexivity|]. split; [reflexivity|]. split; [reflexivity|].
  split; [|split].
  - rewrite <- Hperm. left.
  - intros e He. rewrite <- Hperm in He. by apply (head_least first rest).
  - rewrite <- Hstable. by rewrite filter_cons_True.
Qed.

End Updates.

Lemma async_update_changes_only_departures_witness :
  name Showcase.updated = name Example.fresh ∧
  unique_id Showcase.updated = unique_id Example.fresh ∧
  ∃ out, stop_events Showcase.updated = SE_List out ∧ StronglySorted planned_le out.
Proof.
  destruct (async_update_changes_only_departures
              Example.from_dict (Example.remote_ok Example.payload)
              Example.fresh Showcase.updated)
    as (_ & Hname & Hid & _ & Hout).
  - reflexivity.
  - split; [exact Hname|]. split; [exact Hid|exact Hout].
Defined.

Lemma async_update_idempotent_witness :
  async_update Example.from_dict (Example.remote_ok Example.payload) Showcase.updated
  = ([EvGet departures_request;
      EvLog DEBUG "OK: departures for %s: %s" ["4014080"; ""]],
     Returned Showcase.updated).
Proof.
  apply (async_update_idempotent
           Example.from_dict (Example.remote_ok Example.payload) Example.fresh).
  reflexivity.
Defined.

Lemma async_update_next_departure_witness :
  ∃ updated first,
    result_of (async_update Example.from_dict (Example.remote_ok Example.payload)
                            Example.fresh)
    = Returned updated ∧
    next_departure updated = ([], Returned (Some first)) ∧
    icon Example.DEFAULT_ICON updated = ([], Returned (StopEvent.icon first)) ∧
    first ∈ [Example.event 1005 "6"; Example.event 1002 "1"; Example.event 1005 "11"] ∧
    (∀ e, e ∈ [Example.event 1005 "6"; Example.event 1002 "1";
               Example.event 1005 "11"] →
          StopEvent.planned first <= StopEvent.planned e) ∧
    head (filter (fun e => StopEvent.planned e = StopEvent.planned first)
                 [Example.event 1005 "6"; Example.event 1002 "1";
                  Example.event 1005 "11"])
    = Some first.
Proof.
  apply (async_update_next_departure
           Example.from_dict (Example.remote_ok Example.payload)
           Example.DEFAULT_ICON Example.fresh
           (Example.answer 200 "OK" (Some Example.payload))
           [("version", Json.JString "10.4");
            ("stopEvents",
             Json.JArray [Example.record 1005 "6"; Example.record 1002 "1";
                          Example.record 1005 "11"])]
           [Example.record 1005 "6"; Example.record 1002 "1";
            Example.record 1005 "11"]).
  - reflexivity.
  - unfold status_ok. simpl. lia.
  - reflexivity.
  - reflexivity.
  - repeat constructor.
  - discriminate.
Defined.

(** ** Icon and walking time *)

(** [icon] performs no event and always returns: the default icon while the
    sensor holds [None] or no departure, the icon of the first stored
    departure otherwise. *)
Theorem icon_total {HomeAssistant : Type} (DEFAULT_ICON : string)
        (self : @TransportSensor HomeAssistant) :
  ∃ shown,
    icon DEFAULT_ICON self = ([], Returned shown) ∧
    (stop_events self = SE_None ∨ stop_events self = SE_List [] →
     shown = DEFAULT_ICON) ∧
    (∀ e rest, stop_events self = SE_List (e :: rest) → shown = StopEvent.icon e).
Proof.
  unfold icon, next_departure.
  destruct (stop_events self) as [|[|e rest]]; simpl.
  - exists DEFAULT_ICON. by repeat split.
  - exists DEFAULT_ICON. by repeat split.
  - exists (StopEvent.icon e). split; [done|]. split.
    + by intros [|].
    + by intros e' rest' [= -> _].
Qed.

Lemma icon_total_witness :
  icon Example.DEFAULT_ICON Example.fresh = ([], Returned "mdi:clock") ∧
  icon Example.DEFAULT_ICON Showcase.updated = ([], Returned "mdi:bus").
Proof.
  split.
  - destruct (icon_total Example.DEFAULT_ICON Example.fresh)
      as (shown & -> & Hdefault & _).
    rewrite Hdefault; [reflexivity|]. by right.
  - destruct (icon_total Example.DEFAULT_ICON Showcase.updated)
      as (shown & -> & _ & Hfirst).
    by rewrite (Hfirst (Example.event 1002 "1")
                       [Example.event 1005 "6"; Example.event 1005 "11"]).
Defined.

(** The walking time of a constructed sensor is never [None], zero or
    empty: every configured value that counts as true is kept as it is,
    negative numbers and strings included, and 1 stands in for the rest. *)
Theorem walking_time_never_falsy {HomeAssistant : Type}
        (NAME STOP_ID WALKING_TIME : string)
        (h : HomeAssistant) (cfg : gmap string Py.value)
        (self : @TransportSensor HomeAssistant) :
  result_of (__init__ NAME STOP_ID WALKING_TIME h cfg) = Returned self →
  Py.truthy (walking_time self) = true ∧
  (∀ v, cfg !! WALKING_TIME = Some v → Py.truthy v = true → walking_time self = v) ∧
  (∀ v, cfg !! WALKING_TIME = Some v → Py.truthy v = false →
        walking_time self = Py.VInt 1).
Proof.
  unfold __init__, config_getitem, result_of.
  destruct (cfg !! STOP_ID) as [sid|]; simpl; [|done].
  intros [= <-]. simpl. unfold config_get, Py.or. split; [|split].
  - by destruct (Py.truthy (default Py.VNone (cfg !! WALKING_TIME))) eqn:Hwt.
  - intros v -> Hv. simpl. by rewrite Hv.
  - intros v -> Hv. simpl. by rewrite Hv.
Qed.

Lemma walking_time_never_falsy_witness :
  ∃ self : @TransportSensor unit,
    result_of (__init__ "name" "stop_id" "walking_time" tt
                 (<["walking_time" := Py.VInt (-3)]> Example.cfg))
    = Returned self ∧
    walking_time self = Py.VInt (-3).
Proof.
  destruct (result_of (__init__ "name" "stop_id" "walking_time" tt
                         (<["walking_time" := Py.VInt (-3)]> Example.cfg)))
    as [self|ex] eqn:Hself; [|by vm_compute in Hself].
  exists self. split; [reflexivity|].
  destruct (walking_time_never_falsy "name" "stop_id" "walking_time" tt
              (<["walking_time" := Py.VInt (-3)]> Example.cfg) self Hself)
    as (_ & Hkept & _).
  apply Hkept; by vm_compute.
Defined.

(** ** Platform setup *)

Section PlatformFacts.
Context {HomeAssistant : Type}.
Variables DEPARTURES NAME STOP_ID WALKING_TIME : string.
Variable h : HomeAssistant.

Lemma add_each_all (entries : list (gmap string Py.value)) :
  Forall (fun d => is_Some (d !! STOP_ID)) entries →
  ∃ sensors,
    add_each NAME STOP_ID WALKING_TIME h entries
    = (map (fun s => ([s], true)) sensors, Returned tt) ∧
    Forall2 (fun d s => config s = d ∧ d !! STOP_ID = Some (stop_id s) ∧
                        hass s = h ∧ stop_events s = SE_List [])
            entries sensors.
Proof.
  induction 1 as [|d ds [sid Hsid] _ (sensors & Hrun & Hall)]; simpl.
  - exists []. by split.
  - unfold __init__, config_getitem. rewrite Hsid. simpl. rewrite Hrun.
    eexists (_ :: sensors). split; [reflexivity|]. by constructor.
Qed.

(** With a stop id in every departure entry, setup calls [add_entities]
    once per entry, in the order of the configuration, each time with one
    new sensor and [update_before_add = True]; the sensor carries its
    entry's configuration and stop id and holds no departures yet. *)
Theorem async_setup_platform_adds_each_entry
        (platform : gmap string config_value)
        (entries : list (gmap string Py.value)) :
  platform !! DEPARTURES = Some (CEntries entries) →
  Forall (fun d => is_Some (d !! STOP_ID)) entries →
  ∃ sensors,
    async_setup_platform DEPARTURES NAME STOP_ID WALKING_TIME h platform
    = (map (fun s => ([s], true)) sensors, Returned tt) ∧
    Forall2 (fun d s => config s = d ∧ d !! STOP_ID = Some (stop_id s) ∧
                        hass s = h ∧ stop_events s = SE_List [])
            entries sensors.
Proof.
  intros Hcfg Hall. unfold async_setup_platform. rewrite Hcfg.
  by apply add_each_all.
Qed.

(** An entry without a stop id aborts setup with [KeyError]: the entries
    before it have been added, the entries after it never are. *)
Theorem async_setup_platform_stops_at_missing_stop_id
        (platform : gmap string config_value)
        (good rest : list (gmap string Py.value)) (bad : gmap string Py.value) :
  platform !! DEPARTURES = Some (CEntries (good ++ bad :: rest)) →
  Forall (fun d => is_Some (d !! STOP_ID)) good →
  bad !! STOP_ID = None →
  ∃ sensors,
    async_setup_platform DEPARTURES NAME STOP_ID WALKING_TIME h platform
    = (map (fun s => ([s], true)) sensors,
       Raised (Py.Exn Py.KeyError ("'" +:+ STOP_ID +:+ "'"))) ∧
    Forall2 (fun d s => config s = d) good sensors.
Proof.
  intros Hcfg Hgood Hbad. unfold async_setup_platform. rewrite Hcfg. clear Hcfg.
  induction Hgood as [|d ds [sid Hsid] _ (sensors & Hrun & Hall)]; simpl.
  - unfold __init__, config_getitem. rewrite Hbad. simpl.
    exists []. by split.
  - unfold __init__, config_getitem. rewrite Hsid. simpl. rewrite Hrun.
    eexists (_ :: sensors). split; [reflexivity|]. by constructor.
Qed.

End PlatformFacts.

Lemma async_setup_platform_adds_each_entry_witness :
  ∃ sensors : list (@TransportSensor unit),
    async_setup_platform "departures" "name" "stop_id" "walking_time" tt
                         Showcase.platform_cfg
    = (map (fun s => ([s], true)) sensors, Returned tt) ∧
    length sensors = 2%nat.
Proof.
  destruct (async_setup_platform_adds_each_entry
              "departures" "name" "stop_id" "walking_time" tt
              Showcase.platform_cfg
              [Example.cfg; {[ "stop_id" := Py.VInt 4014081 ]}])
    as (sensors & Hrun & Hall).
  - by vm_compute.
  - constructor; [exists (Py.VInt 4014080); by vm_compute|].
    constructor; [exists (Py.VInt 4014081); by vm_compute|].
    constructor.
  - exists sensors. split; [exact Hrun|].
    symmetry. by apply (Forall2_length _ _ _ Hall).
Defined.

Lemma async_setup_platform_stops_at_missing_stop_id_witness :
  ∃ sensors : list (@TransportSensor unit),
    async_setup_platform "departures" "name" "stop_id" "walking_time" tt
                         Showcase.platform_cfg_gap
    = (map (fun s => ([s], true)) sensors,
       Raised (Py.Exn Py.KeyError "'stop_id'")) ∧
    Forall2 (fun d s => config s = d) [Example.cfg] sensors.
Proof.
  apply (async_setup_platform_stops_at_missing_stop_id
           "departures" "name" "stop_id" "walking_time" tt
           Showcase.platform_cfg_gap
           [Example.cfg] [{[ "stop_id" := Py.VInt 4014081 ]}]
           {[ "name" := Py.VStr "Arnulfsplatz" ]}).
  - by vm_compute.
  - constructor; [exists (Py.VInt 4014080); by vm_compute|].
    constructor.
  - by vm_compute.
Defined.

(** ** The attributes after an update *)

(** After an update on a payload of N readable records the [departures]
    attribute holds N mappings: the fetched list, ascending by [planned],
    serialised element by element. *)
Theorem async_update_attributes {HomeAssistant Mapping : Type}
        (from_dict : Json.t → outcome StopEvent.t)
        (to_dict : StopEvent.t → Mapping)
        (remote : Request → outcome Response)
        (self : @TransportSensor HomeAssistant)
        (response : Response) (fields : list (string * Json.t))
        (records : list Json.t) (events : list StopEvent.t) :
  remote departures_request = Returned response →
  status_ok response →
  json_body response = Some (Json.JObject fields) →
  Json.assoc "stopEvents" fields = Some (Json.JArray records) →
  Forall2 (fun d e => from_dict d = Returned e) records events →
  ∃ updated out,
    result_of (async_update from_dict remote self) = Returned updated ∧
    out ≡ₚ events ∧
    StronglySorted planned_le out ∧
    extra_state_attributes to_dict updated = [("departures", map to_dict out)] ∧
    length (map to_dict out) = length records.
Proof.
  intros Hget Hok Hbody Hfield Hparse.
  pose proof (fetch_departures_returns _ _ self _ _ _ _ Hget Hok Hbody Hfield Hparse)
    as Hfetch.
  eexists _, (sorted StopEvent.planned events).
  unfold async_update. rewrite Hfetch. simpl.
  split; [reflexivity|].
  split; [apply sorted_Permutation|].
  split; [apply sorted_StronglySorted|]. split.
  - unfold extra_state_attributes. simpl.
    by destruct (sorted StopEvent.planned events).
  - rewrite length_map, sorted_length. symmetry. by eapply Forall2_length.
Qed.

Lemma async_update_attributes_witness :
  ∃ updated out,
    result_of (async_update Example.from_dict (Example.remote_ok Example.payload)
                            Example.fresh)
    = Returned updated ∧
    out ≡ₚ [Example.event 1005 "6"; Example.event 1002 "1"; Example.event 1005 "11"] ∧
    StronglySorted planned_le out ∧
    extra_state_attributes Example.to_dict updated
    = [("departures", map Example.to_dict out)] ∧
    length (map Example.to_dict out) = 3%nat.
Proof.
  apply (async_update_attributes
           Example.from_dict Example.to_dict (Example.remote_ok Example.payload)
           Example.fresh
           (Example.answer 200 "OK" (Some Example.payload))
           [("version", Json.JString "10.4");
            ("stopEvents",
             Json.JArray [Example.record 1005 "6"; Example.record 1002 "1";
                          Example.record 1005 "11"])]
           [Example.record 1005 "6"; Example.record 1002 "1";
            Example.record 1005 "11"]).
  - reflexivity.
  - unfold status_ok. simpl. lia.
  - reflexivity.
  - reflexivity.
  - repeat constructor.
Defined.
